(** * crunchy-cli: the root command and its failure-isolation shell

    A shallow embedding of [cli/root.go]: the package-level flag
    variables, the root command with its persistent pre-run hook, [init]
    and [Execute].  Package-level state is threaded explicitly; a Go
    function that may return, panic or terminate the process is a
    computation in the monad [M] below. *)

From Stdlib Require Import Bool Arith ZArith Lia List String Ascii.
From Stdlib Require Import DecimalString.
Import ListNotations.

Local Open Scope list_scope.
Local Open Scope string_scope.

(** ** Strings as Go has them

    A Go string is a sequence of bytes; [len] is its number of bytes.
    [String.string] is the same data. *)

Module GoStrings.

(** [strings.HasSuffix]:
    [len(s) >= len(suffix) && s[len(s)-len(suffix):] == suffix]. *)
Definition HasSuffix (s suffix : string) : bool :=
  (String.length suffix <=? String.length s)%nat
  && (substring (String.length s - String.length suffix)
                (String.length suffix) s =? suffix).

(** [%d] of a non-negative [int]. *)
Definition itoa (n : nat) : string :=
  NilEmpty.string_of_uint (Nat.to_uint n).

End GoStrings.
Export GoStrings.

(** ** Data model *)

(** An [error] value is kept as its message, the text of [err.Error()];
    [%v] of an error prints the same text. *)
Definition error := string.

(** [context.Canceled.Error()]. *)
Definition Canceled : error := "context canceled".

Inductive Level := LDebug | LInfo | LErr.

(** Modelled from the spec: the type behind [utils.Logger] (package
    [utils] and [commands.NewLogger] are not part of the sources at
    hand).  A logger has a subset of enabled levels and a developer-mode
    setting. *)
Record Logger := mkLogger {
  debugEnabled : bool;
  infoEnabled : bool;
  errorEnabled : bool;
  developerMode : bool
}.

Definition enabled (lvl : Level) (l : Logger) : bool :=
  match lvl with
  | LDebug => debugEnabled l
  | LInfo => infoEnabled l
  | LErr => errorEnabled l
  end.

Definition levels (l : Logger) : bool * bool * bool :=
  (debugEnabled l, infoEnabled l, errorEnabled l).

(** [l.IsDev()]. *)
Definition IsDev (l : Logger) : bool := developerMode l.

(** Modelled from the spec: the shared HTTP client, of which only the
    proxy and the user agent it was built from are known. *)
Record HTTPClient := mkClient {
  clientProxy : option string;
  clientUserAgent : string
}.

(** What the root command does that can be observed from outside, in the
    order it happens. *)
Inductive Event :=
| EvSetLog (l : Logger)
    (** assignment to [utils.Log] *)
| EvLog (lvl : Level) (msg : string) (written : bool)
    (** a message handed to [utils.Log] at [lvl]; [written] tells whether
        that level was enabled in the logger that received it *)
| EvNewClient (proxy useragent : string)
    (** call of [utils.CreateOrDefaultClient] *)
| EvCobraError (msg : string)
    (** cobra printing ["Error: <msg>"] itself *)
| EvCobraUsage.
    (** cobra printing the usage text itself *)

(** The package-level variables of [cli] and [utils] the file reads and
    writes, [RootCmd.CompletionOptions.HiddenDefaultCmd], and the events
    so far (oldest first). *)
Record Globals := mkGlobals {
  quietFlag : bool;
  verboseFlag : bool;
  proxyFlag : string;
  useragentFlag : string;
  Log : Logger;
  Client : option HTTPClient;
  HiddenDefaultCmd : bool;
  trace : list Event
}.

Definition set_quietFlag (b : bool) (g : Globals) : Globals :=
  mkGlobals b (verboseFlag g) (proxyFlag g) (useragentFlag g)
            (Log g) (Client g) (HiddenDefaultCmd g) (trace g).
Definition set_verboseFlag (b : bool) (g : Globals) : Globals :=
  mkGlobals (quietFlag g) b (proxyFlag g) (useragentFlag g)
            (Log g) (Client g) (HiddenDefaultCmd g) (trace g).
Definition set_proxyFlag (s : string) (g : Globals) : Globals :=
  mkGlobals (quietFlag g) (verboseFlag g) s (useragentFlag g)
            (Log g) (Client g) (HiddenDefaultCmd g) (trace g).
Definition set_useragentFlag (s : string) (g : Globals) : Globals :=
  mkGlobals (quietFlag g) (verboseFlag g) (proxyFlag g) s
            (Log g) (Client g) (HiddenDefaultCmd g) (trace g).
Definition set_Log (l : Logger) (g : Globals) : Globals :=
  mkGlobals (quietFlag g) (verboseFlag g) (proxyFlag g) (useragentFlag g)
            l (Client g) (HiddenDefaultCmd g) (trace g).
Definition set_Client (c : option HTTPClient) (g : Globals) : Globals :=
  mkGlobals (quietFlag g) (verboseFlag g) (proxyFlag g) (useragentFlag g)
            (Log g) c (HiddenDefaultCmd g) (trace g).
Definition set_HiddenDefaultCmd (b : bool) (g : Globals) : Globals :=
  mkGlobals (quietFlag g) (verboseFlag g) (proxyFlag g) (useragentFlag g)
            (Log g) (Client g) b (trace g).
Definition record (e : Event) (g : Globals) : Globals :=
  mkGlobals (quietFlag g) (verboseFlag g) (proxyFlag g) (useragentFlag g)
            (Log g) (Client g) (HiddenDefaultCmd g) (trace g ++ [e])%list.

(** ** Go control flow

    A call either returns a value, panics, or ends the process through
    [os.Exit].  A panic carries the value given to [panic] and the
    goroutine's stack as [debug.Stack()] reports it to a deferred
    function. *)

(** A value of type [any] as the file uses it: [None] is the nil
    interface value, [Some s] a value that [%v] prints as [s].  A panic
    value may be nil: [panic(nil)] panics with nil, as the runtime has it
    for modules that declare a Go version before 1.21 (later ones turn it
    into a [*runtime.PanicNilError], which is not nil). *)
Definition any : Type := option string.

Inductive Result (A : Type) : Type :=
| Ok (a : A)
| Panic (v : any) (stack : string)
| Exit (code : Z).
Arguments Ok {A} a.
Arguments Panic {A} v stack.
Arguments Exit {A} code.

Definition M (A : Type) : Type := Globals -> Globals * Result A.

Definition ret {A} (a : A) : M A := fun g => (g, Ok a).

Definition bind {A B} (m : M A) (k : A -> M B) : M B :=
  fun g =>
    match m g with
    | (g1, Ok a) => k a g1
    | (g1, Panic v st) => (g1, Panic v st)
    | (g1, Exit c) => (g1, Exit c)
    end.

Declare Scope go_scope.
Delimit Scope go_scope with go.
Notation "x <- m ;; k" := (bind m (fun x => k))
  (at level 61, m at next level, right associativity) : go_scope.
Notation "m ;; k" := (bind m (fun _ => k))
  (at level 61, right associativity) : go_scope.
Local Open Scope go_scope.

Definition gets {A} (f : Globals -> A) : M A := fun g => (g, Ok (f g)).
Definition modify (f : Globals -> Globals) : M unit := fun g => (f g, Ok tt).
Definition emit (e : Event) : M unit := modify (record e).

(** [panic(v)] and [os.Exit(code)]. *)
Definition panic {A} (v : any) (stack : string) : M A :=
  fun g => (g, Panic v stack).
Definition os_Exit {A} (code : Z) : M A := fun g => (g, Exit code).

(** How the body of a function ended when its deferred calls run. *)
Inductive Unwind :=
| Returning
| Panicking (v : any) (stack : string).

(** [recover()] in a deferred function: the value given to [panic], and
    nil when the function is not panicking.  After [panic(nil)] it is
    nil as well. *)
Definition recover (u : Unwind) : any :=
  match u with
  | Returning => None
  | Panicking v _ => v
  end.

(** [debug.Stack()] in a deferred function.  The stack of a function
    that is returning is of no use to the code and left empty. *)
Definition debug_Stack (u : Unwind) : string :=
  match u with
  | Returning => ""
  | Panicking _ stack => stack
  end.

(** [defer d()] in a function without results whose body is [body].
    The deferred function runs when the body returns or panics, not when
    the process exits.  The deferred functions of this file call
    [recover] first thing, which ends the panic, so the function returns
    normally when [d] does. *)
Definition defer (d : Unwind -> M unit) (body : M unit) : M unit :=
  fun g =>
    match body g with
    | (g1, Ok tt) => d Returning g1
    | (g1, Panic v st) => d (Panicking v st) g1
    | (g1, Exit c) => (g1, Exit c)
    end.

(** The status a process ends with: 0 when [main] returns, the argument
    of [os.Exit], 2 when a panic reaches the top of the goroutine. *)
Definition exitCode (r : Result unit) : Z :=
  match r with
  | Ok _ => 0
  | Panic _ _ => 2
  | Exit c => c
  end.

(** Methods of [utils.Log].  Modelled from the spec: a message is
    written when its level is enabled and dropped otherwise. *)
Definition Log_at (lvl : Level) (msg : string) : M unit :=
  fun g => (record (EvLog lvl msg (enabled lvl (Log g))) g, Ok tt).
Definition Log_Debug := Log_at LDebug.
Definition Log_Info := Log_at LInfo.
Definition Log_Err := Log_at LErr.
Definition Log_IsDev : M bool := gets (fun g => IsDev (Log g)).

(** The messages of a trace that were written, with their level. *)
Fixpoint written (tr : list Event) : list (Level * string) :=
  match tr with
  | [] => []
  | EvLog lvl msg true :: tr' => (lvl, msg) :: written tr'
  | _ :: tr' => written tr'
  end.

(** What cobra printed on its own. *)
Definition isCobraPrint (e : Event) : bool :=
  match e with
  | EvCobraError _ | EvCobraUsage => true
  | _ => false
  end.

(** ** cobra

    The part of [github.com/spf13/cobra] the root command relies on,
    after the library's [Command.ExecuteC]: what the command line resolves
    to, the order of flag parsing, persistent pre-run hook and command
    body, and the library's own printing of a returned error, which the
    [SilenceErrors] and [SilenceUsage] fields turn off.  Help, version and
    completion requests are left out. *)

(** The values the command line gives to the persistent flags; [None]
    for a flag that was not supplied. *)
Record FlagValues := mkFlags {
  quiet_arg : option bool;
  verbose_arg : option bool;
  proxy_arg : option string;
  useragent_arg : option string
}.

(** A subcommand: its name and its body, which is out of scope and may do
    anything a Go function can. *)
Record Subcommand := mkSub {
  Name : string;
  RunE : list string -> M (option error)
}.

(** The fields of [cobra.Command] that [RootCmd] sets.  The hook gets the
    matched command, of which it only asks the name. *)
Record Command := mkCommand {
  Use : string;
  Version : string;
  Short : string;
  SilenceErrors : bool;
  SilenceUsage : bool;
  PersistentPreRunE : Subcommand -> list string -> M (option error)
}.

Inductive Invocation :=
| NotFound (msg : error)
    (** no subcommand of that name: [Find] fails before flags are parsed *)
| BadFlags (seen : FlagValues) (msg : error)
    (** flag parsing or argument validation fails, after the flags in
        [seen] were stored *)
| Matched (flags : FlagValues) (cmd : Subcommand) (args : list string).

(** Flags registered with [BoolVarP]/[StringVarP]/[StringVar] are bound to
    the package variables: parsing stores each supplied value. *)
Definition store {A} (set : A -> Globals -> Globals) (v : option A) : M unit :=
  match v with
  | Some a => modify (set a)
  | None => ret tt
  end.

Definition ParseFlags (fv : FlagValues) : M unit :=
  store set_quietFlag (quiet_arg fv);;
  store set_verboseFlag (verbose_arg fv);;
  store set_proxyFlag (proxy_arg fv);;
  store set_useragentFlag (useragent_arg fv).

Definition unless (b : bool) (m : M unit) : M unit :=
  if b then ret tt else m.

(** A failed run: cobra prints the error and the usage unless silenced,
    and returns the error to the caller. *)
Definition fail_run (c : Command) (e : error) : M (option error) :=
  unless (SilenceErrors c) (emit (EvCobraError e));;
  unless (SilenceUsage c) (emit EvCobraUsage);;
  ret (Some e).

(** [c.Execute()]. *)
Definition Command_Execute (c : Command) (inv : Invocation)
  : M (option error) :=
  match inv with
  | NotFound msg =>
      unless (SilenceErrors c) (emit (EvCobraError msg));;
      ret (Some msg)
  | BadFlags seen msg =>
      ParseFlags seen;;
      fail_run c msg
  | Matched flags cmd args =>
      ParseFlags flags;;
      err <- PersistentPreRunE c cmd args;;
      match err with
      | Some e => fail_run c e
      | None =>
          err <- RunE cmd args;;
          match err with
          | Some e => fail_run c e
          | None => ret None
          end
      end
  end.

(** ** Lines of the dispatcher *)

(** The line the deferred function logs for a recovered panic. *)
Definition panic_line (l : Logger) (v stack : string) : Event :=
  EvLog LErr
        (if IsDev l then v ++ ": " ++ stack else "Unexpected error: " ++ v)
        (errorEnabled l).

(** The line logged for a returned error. *)
Definition error_line (l : Logger) (e : error) : Event :=
  EvLog LErr ("An error occurred: " ++ e) (errorEnabled l).

(** ** The root command *)

Section Root.

(** [utils.Version]. *)
Variable utils_Version : string.

(** The developer-mode setting of the logger [commands.NewLogger] builds
    from three level switches; the spec leaves it open. *)
Variable devOf : bool -> bool -> bool -> bool.

(** Whether [utils.CreateOrDefaultClient] accepts a non-empty proxy
    string: [None] for a valid proxy URL, otherwise the error it fails
    with. *)
Variable proxyError : string -> option error.

(** Modelled from the spec: [commands.NewLogger(debug, info, err)], the
    logger with exactly those levels enabled. *)
Definition NewLogger (debug info err : bool) : Logger :=
  mkLogger debug info err (devOf debug info err).

(** Modelled from the spec: [utils.CreateOrDefaultClient(proxy,
    useragent)].  It fails when the proxy string is non-empty and not a
    valid proxy URL; on an empty proxy it gives a default client; the
    client carries the given user agent. *)
Definition CreateOrDefaultClient (proxy useragent : string)
  : option HTTPClient * option error :=
  if proxy =? "" then (Some (mkClient None useragent), None)
  else match proxyError proxy with
       | Some e => (None, Some e)
       | None => (Some (mkClient (Some proxy) useragent), None)
       end.

(** [RootCmd]'s hook:
<<
    if verboseFlag { utils.Log = commands.NewLogger(true, true, true) }
    else if quietFlag { utils.Log = commands.NewLogger(false, false, false) }
    utils.Log.Debug("Executing `%s` command with %d arg(s)", cmd.Name(), len(args))
    utils.Client, err = utils.CreateOrDefaultClient(proxyFlag, useragentFlag)
    return
>> *)
Definition setLog (l : Logger) : M unit :=
  modify (set_Log l);; emit (EvSetLog l).

Definition executing (cmd : Subcommand) (args : list string) : string :=
  "Executing `" ++ Name cmd ++ "` command with "
    ++ itoa (List.length args) ++ " arg(s)".

Definition RootPreRunE (cmd : Subcommand) (args : list string)
  : M (option error) :=
  verbose <- gets verboseFlag;;
  quiet <- gets quietFlag;;
  (if verbose then setLog (NewLogger true true true)
   else if quiet then setLog (NewLogger false false false)
   else ret tt);;
  Log_Debug (executing cmd args);;
  proxy <- gets proxyFlag;;
  useragent <- gets useragentFlag;;
  emit (EvNewClient proxy useragent);;
  let (client, err) := CreateOrDefaultClient proxy useragent in
  modify (set_Client client);;
  ret err.

Definition RootCmd : Command := {|
  Use := "crunchy-cli";
  Version := utils_Version;
  Short := "Download crunchyroll videos with ease. See the wiki for details about the cli and library: https://github.com/crunchy-labs/crunchy-cli/wiki";
  SilenceErrors := true;
  SilenceUsage := true;
  PersistentPreRunE := RootPreRunE
|}.

(** [init]: the flag defaults and the default logger.  The package
    variables start from their zero values; registering a flag stores its
    default in the variable it is bound to. *)
Definition init : Globals := {|
  quietFlag := false;
  verboseFlag := false;
  proxyFlag := "";
  useragentFlag := "crunchy-cli/" ++ utils_Version;
  Log := NewLogger false true true;
  Client := None;
  HiddenDefaultCmd := false;
  trace := []
|}.

(** [Execute]:
<<
    RootCmd.CompletionOptions.HiddenDefaultCmd = true
    defer func() {
        if r := recover(); r != nil {
            if utils.Log.IsDev() { utils.Log.Err("%v: %s", r, debug.Stack()) }
            else { utils.Log.Err("Unexpected error: %v", r) }
            os.Exit(1)
        }
    }()
    if err := RootCmd.Execute(); err != nil {
        if !strings.HasSuffix(err.Error(), context.Canceled.Error()) {
            utils.Log.Err("An error occurred: %v", err)
        }
        os.Exit(1)
    }
>> *)
Definition recovered (u : Unwind) : M unit :=
  match recover u with
  | Some r =>
      dev <- Log_IsDev;;
      (if dev then Log_Err (r ++ ": " ++ debug_Stack u)
       else Log_Err ("Unexpected error: " ++ r));;
      os_Exit 1
  | None => ret tt
  end.

Definition Execute (inv : Invocation) : M unit :=
  modify (set_HiddenDefaultCmd true);;
  defer recovered
    (err <- Command_Execute RootCmd inv;;
     match err with
     | Some e =>
         (if negb (HasSuffix e Canceled)
          then Log_Err ("An error occurred: " ++ e)
          else ret tt);;
         os_Exit 1
     | None => ret tt
     end).

(** *** Vocabulary for the properties *)

(** The logger in force once the hook has looked at the flags. *)
Definition selected (g : Globals) : Logger :=
  if verboseFlag g then NewLogger true true true
  else if quietFlag g then NewLogger false false false
  else Log g.

(** The error an invocation meets before any subcommand body is entered,
    if any: an unknown subcommand, a flag that does not parse, or client
    construction failing in the hook. *)
Definition startup_error (inv : Invocation) (g : Globals) : option error :=
  match inv with
  | NotFound msg => Some msg
  | BadFlags _ msg => Some msg
  | Matched flags _ _ =>
      let g0 := fst (ParseFlags flags g) in
      snd (CreateOrDefaultClient (proxyFlag g0) (useragentFlag g0))
  end.

(** The state such an invocation reaches up to that point; no [RunE]
    occurs in it. *)
Definition startup_state (inv : Invocation) (g : Globals) : Globals :=
  match inv with
  | NotFound _ => g
  | BadFlags seen _ => fst (ParseFlags seen g)
  | Matched flags cmd args =>
      fst (RootPreRunE cmd args (fst (ParseFlags flags g)))
  end.

End Root.

(** Whether a call ended the process itself. *)
Definition isExit {A} (r : Result A) : bool :=
  match r with
  | Exit _ => true
  | _ => false
  end.

(** Whether a call panicked with a nil value. *)
Definition nilPanic {A} (r : Result A) : bool :=
  match r with
  | Panic None _ => true
  | _ => false
  end.

(** An invocation whose subcommand body, if it has one, leaves the
    completion setting alone. *)
Definition keeps_completion (inv : Invocation) : Prop :=
  match inv with
  | Matched _ cmd args =>
      forall g, HiddenDefaultCmd (fst (RunE cmd args g)) = HiddenDefaultCmd g
  | _ => True
  end.

(** The arguments of the calls of [utils.CreateOrDefaultClient] in a
    trace. *)
Fixpoint clientCalls (tr : list Event) : list (string * string) :=
  match tr with
  | [] => []
  | EvNewClient p ua :: tr' => (p, ua) :: clientCalls tr'
  | _ :: tr' => clientCalls tr'
  end.

(** A flag's value after parsing, from its value before. *)
Definition given {A} (v : option A) (before : A) : A :=
  match v with
  | Some a => a
  | None => before
  end.

(** Whether an event is a message handed to the logger at error level. *)
Definition isErrLog (ev : Event) : bool :=
  match ev with
  | EvLog LErr _ _ => true
  | _ => false
  end.

(** Two states that differ at most in their trace. *)
Definition same_settings (g g' : Globals) : Prop :=
  quietFlag g' = quietFlag g
  /\ verboseFlag g' = verboseFlag g
  /\ proxyFlag g' = proxyFlag g
  /\ useragentFlag g' = useragentFlag g
  /\ Log g' = Log g
  /\ Client g' = Client g
  /\ HiddenDefaultCmd g' = HiddenDefaultCmd g.

(** ** A sample environment

    One choice of what the sources at hand leave open, and a few
    subcommand bodies, to run the definitions on. *)

Module Sample.

Definition version : string := "3.0.0".

(** Developer mode follows the debug switch. *)
Definition dev (debug info err : bool) : bool := debug.

(** A proxy string is taken as valid when it names a scheme. *)
Definition proxy_error (p : string) : option error :=
  match index 0 "://" p with
  | Some _ => None
  | None => Some ("invalid proxy: " ++ p)
  end.

Definition no_flags : FlagValues := mkFlags None None None None.
Definition quiet_only : FlagValues := mkFlags (Some true) None None None.
Definition verbose_only : FlagValues := mkFlags None (Some true) None None.
Definition both : FlagValues := mkFlags (Some true) (Some true) None None.
Definition bad_proxy : FlagValues := mkFlags None None (Some "nonsense") None.

Definition succeeds : Subcommand := mkSub "info" (fun _ => ret None).
Definition fails (msg : error) : Subcommand :=
  mkSub "download" (fun _ => ret (Some msg)).
Definition panics (v stack : string) : Subcommand :=
  mkSub "archive" (fun _ => panic (Some v) stack).

(** A body that does [panic(nil)]. *)
Definition panics_nil : Subcommand :=
  mkSub "archive" (fun _ => panic None "goroutine 1").
Definition nil_panic : Invocation := Matched no_flags panics_nil [].

Definition start : Globals := init version dev.
Definition run (inv : Invocation) : Globals * Result unit :=
  Execute version dev proxy_error inv start.

Definition root : Command := RootCmd version dev proxy_error.

(** [RootCmd.Execute()] as [Execute] calls it. *)
Definition dispatched (inv : Invocation)
  : Globals * Result (option error) :=
  Command_Execute root inv (set_HiddenDefaultCmd true start).

(** The sample subcommand that fails with a wrapped cancellation. *)
Definition wrapped : error := "archive: context canceled".
Definition interrupted : Invocation := Matched no_flags (fails wrapped) [].

(** A root command that silences nothing, to see what cobra prints. *)
Definition loud : Command :=
  mkCommand "loud" "" "" false false
            (fun _ _ => ret None).

End Sample.

(** * Properties *)

(** ** Suffixes *)

Lemma length_app (a b : string) :
  String.length (a ++ b) = (String.length a + String.length b)%nat.
Proof.
  induction a as [|c a IH]; simpl; [reflexivity | now rewrite IH].
Qed.

Lemma substring_all (s : string) : substring 0 (String.length s) s = s.
Proof.
  induction s as [|c s IH]; simpl; [reflexivity | now rewrite IH].
Qed.

Lemma substring_skip (a b : string) (m : nat) :
  substring (String.length a) m (a ++ b) = substring 0 m b.
Proof.
  induction a as [|c a IH]; simpl; [reflexivity | exact IH].
Qed.

(** A string is its first [n] bytes followed by the rest. *)
Lemma split_at (s : string) :
  forall n, (n <= String.length s)%nat ->
  s = substring 0 n s ++ substring n (String.length s - n) s.
Proof.
  induction s as [|c s IH]; intros [|n] Hn; simpl in *.
  - reflexivity.
  - lia.
  - now rewrite substring_all.
  - f_equal. apply IH. lia.
Qed.

Lemma HasSuffix_app (pre suffix : string) :
  HasSuffix (pre ++ suffix) suffix = true.
Proof.
  unfold HasSuffix. rewrite length_app.
  apply andb_true_intro; split.
  - apply Nat.leb_le. lia.
  - replace (String.length pre + String.length suffix
             - String.length suffix)%nat with (String.length pre) by lia.
    rewrite substring_skip, substring_all. apply String.eqb_refl.
Qed.

Lemma HasSuffix_inv (s suffix : string) :
  HasSuffix s suffix = true -> exists pre, s = pre ++ suffix.
Proof.
  unfold HasSuffix. intros H.
  apply andb_prop in H. destruct H as [Hlen Heq].
  apply Nat.leb_le in Hlen. apply String.eqb_eq in Heq.
  exists (substring 0 (String.length s - String.length suffix) s).
  pose proof (split_at s (String.length s - String.length suffix)) as E.
  replace (String.length s - (String.length s - String.length suffix))%nat
    with (String.length suffix) in E by lia.
  rewrite Heq in E. apply E. lia.
Qed.

Lemma HasSuffix_iff (s suffix : string) :
  HasSuffix s suffix = true <-> exists pre, s = pre ++ suffix.
Proof.
  split.
  - apply HasSuffix_inv.
  - intros [pre ->]. apply HasSuffix_app.
Qed.


(** ** The dispatcher *)

Section RootProperties.

Variable utils_Version : string.
Variable devOf : bool -> bool -> bool -> bool.
Variable proxyError : string -> option error.

Local Abbreviation RootCmd := (RootCmd utils_Version devOf proxyError).
Local Abbreviation Execute := (Execute utils_Version devOf proxyError).
Local Abbreviation RootPreRunE := (RootPreRunE devOf proxyError).
Local Abbreviation CreateOrDefaultClient := (CreateOrDefaultClient proxyError).
Local Abbreviation NewLogger := (NewLogger devOf).
Local Abbreviation init := (init utils_Version devOf).

(** The state [RootCmd.Execute()] is entered in. *)
Local Abbreviation entered g := (set_HiddenDefaultCmd true g).

(** [Execute] by cases on how [RootCmd.Execute()] ends. *)
Lemma Execute_cases (inv : Invocation) (g : Globals) :
  Execute inv g =
  match Command_Execute RootCmd inv (entered g) with
  | (g1, Ok None) => (g1, Ok tt)
  | (g1, Ok (Some e)) =>
      (if HasSuffix e Canceled then g1 else record (error_line (Log g1) e) g1,
       Exit 1)
  | (g1, Panic (Some v) stack) =>
      (record (panic_line (Log g1) v stack) g1, Exit 1)
  | (g1, Panic None stack) => (g1, Ok tt)
  | (g1, Exit c) => (g1, Exit c)
  end.
Proof.
  unfold Execute, defer, bind at 1, modify. unfold bind at 1.
  destruct (Command_Execute RootCmd inv (entered g))
    as [g1 [[e|]|[v|] stack|c]];
    simpl; try reflexivity.
  - destruct (HasSuffix e Canceled); reflexivity.
  - unfold recovered, bind, Log_IsDev, gets, panic_line; simpl.
    destruct (IsDev (Log g1)); reflexivity.
Qed.

Lemma app_one_neq {A} (l : list A) (a : A) : (l ++ [a])%list <> l.
Proof.
  intros H. apply (f_equal (@List.length A)) in H.
  rewrite List.length_app in H. simpl in H. lia.
Qed.

(** C1.  When command execution returns an error whose message ends with
    the text of [context.Canceled], [Execute] ends the process with
    status 1 and leaves the state as command execution left it: nothing
    is handed to the logger, so no ["An error occurred"] line. *)
Theorem Execute_cancelled (inv : Invocation) (g g1 : Globals) (e : error) :
  Command_Execute RootCmd inv (entered g) = (g1, Ok (Some e)) ->
  HasSuffix e Canceled = true ->
  Execute inv g = (g1, Exit 1)
  /\ exitCode (snd (Execute inv g)) = 1%Z
  /\ trace (fst (Execute inv g)) = trace g1.
Proof.
  intros Hrun Hsuf.
  assert (E : Execute inv g = (g1, Exit 1)).
  { rewrite Execute_cases, Hrun, Hsuf. reflexivity. }
  rewrite E. repeat split.
Qed.

(** C2.  When command execution returns an error whose message does not
    end with the text of [context.Canceled], [Execute] hands exactly one
    message to the logger, at error level, which is ["An error occurred: "]
    followed by the error's message, and ends the process with status 1.
    (The logger writes the line when its error level is enabled.) *)
Theorem Execute_error (inv : Invocation) (g g1 : Globals) (e : error) :
  Command_Execute RootCmd inv (entered g) = (g1, Ok (Some e)) ->
  HasSuffix e Canceled = false ->
  Execute inv g = (record (error_line (Log g1) e) g1, Exit 1)
  /\ exitCode (snd (Execute inv g)) = 1%Z
  /\ trace (fst (Execute inv g))
     = (trace g1
        ++ [EvLog LErr ("An error occurred: " ++ e) (errorEnabled (Log g1))])%list.
Proof.
  intros Hrun Hsuf.
  assert (E : Execute inv g = (record (error_line (Log g1) e) g1, Exit 1)).
  { rewrite Execute_cases, Hrun, Hsuf. reflexivity. }
  rewrite E. repeat split.
Qed.

(** C3, as amended.  When command execution panics with a value [v] that
    is not nil, [Execute] recovers: it does not end in a panic but ends
    the process with status 1, after handing one message to the logger at
    error level.  In developer mode the message is the panic value
    followed by the stack trace; otherwise it is ["Unexpected error: "]
    followed by the panic value, without the stack trace. *)
Theorem Execute_panic (inv : Invocation) (g g1 : Globals) (v stack : string) :
  Command_Execute RootCmd inv (entered g) = (g1, Panic (Some v) stack) ->
  snd (Execute inv g) = Exit 1
  /\ exitCode (snd (Execute inv g)) = 1%Z
  /\ trace (fst (Execute inv g))
     = (trace g1
        ++ [EvLog LErr
              (if IsDev (Log g1) then v ++ ": " ++ stack
               else "Unexpected error: " ++ v)
              (errorEnabled (Log g1))])%list.
Proof.
  intros Hrun.
  rewrite Execute_cases, Hrun. repeat split.
Qed.

(** *** Flag parsing *)

Lemma ParseFlags_ok (fv : FlagValues) (g : Globals) :
  snd (ParseFlags fv g) = Ok tt.
Proof. destruct fv as [[q|] [v|] [p|] [u|]]; reflexivity. Qed.

(** Steps over [ParseFlags fv;; k] in the goal. *)
Ltac step_flags fv g :=
  let g0 := fresh "g0" in
  let r := fresh "r" in
  let H := fresh "H" in
  unfold bind at 1;
  pose proof (ParseFlags_ok fv g) as H;
  destruct (ParseFlags fv g) as [g0 r];
  simpl in H; subst r; simpl fst.

Lemma ParseFlags_fields (fv : FlagValues) (g : Globals) :
  let g0 := fst (ParseFlags fv g) in
  quietFlag g0 = given (quiet_arg fv) (quietFlag g)
  /\ verboseFlag g0 = given (verbose_arg fv) (verboseFlag g)
  /\ proxyFlag g0 = given (proxy_arg fv) (proxyFlag g)
  /\ useragentFlag g0 = given (useragent_arg fv) (useragentFlag g)
  /\ Log g0 = Log g
  /\ trace g0 = trace g.
Proof. destruct fv as [[q|] [v|] [p|] [u|]]; repeat split. Qed.

(** *** The hook *)

(** The hook, step by step: the logger is set when a flag asks for it,
    the debug message goes to the logger then in force, the client is
    built from the two string flags, and the error of that is returned. *)
Lemma RootPreRunE_cases (cmd : Subcommand) (args : list string) (g : Globals) :
  RootPreRunE cmd args g =
  let l := selected devOf g in
  let g1 := if verboseFlag g || quietFlag g
            then record (EvSetLog l) (set_Log l g) else g in
  let g2 := record (EvLog LDebug (executing cmd args) (debugEnabled l)) g1 in
  let g3 := record (EvNewClient (proxyFlag g) (useragentFlag g)) g2 in
  let r := CreateOrDefaultClient (proxyFlag g) (useragentFlag g) in
  (set_Client (fst r) g3, Ok (snd r)).
Proof.
  unfold RootPreRunE, selected, bind, gets, setLog, bind, modify,
    Log_Debug, Log_at, emit, modify, ret.
  destruct g as [q v p u l c h t]; simpl.
  destruct v, q; simpl;
    destruct (CreateOrDefaultClient p u) as [cl er]; reflexivity.
Qed.

Lemma RootPreRunE_result (cmd : Subcommand) (args : list string) (g : Globals) :
  snd (RootPreRunE cmd args g)
  = Ok (snd (CreateOrDefaultClient (proxyFlag g) (useragentFlag g))).
Proof. rewrite RootPreRunE_cases. reflexivity. Qed.

Lemma RootPreRunE_Log (cmd : Subcommand) (args : list string) (g : Globals) :
  Log (fst (RootPreRunE cmd args g)) = selected devOf g.
Proof.
  rewrite RootPreRunE_cases. unfold selected.
  destruct (verboseFlag g), (quietFlag g); reflexivity.
Qed.

Lemma RootPreRunE_trace (cmd : Subcommand) (args : list string) (g : Globals) :
  trace (fst (RootPreRunE cmd args g))
  = (trace g
     ++ (if verboseFlag g || quietFlag g
         then [EvSetLog (selected devOf g)] else [])
     ++ [EvLog LDebug (executing cmd args) (debugEnabled (selected devOf g));
         EvNewClient (proxyFlag g) (useragentFlag g)])%list.
Proof.
  rewrite RootPreRunE_cases. unfold selected.
  destruct g as [q v p u l c h t]; simpl.
  destruct v, q; simpl; rewrite <- ?List.app_assoc; reflexivity.
Qed.

(** *** Client construction *)

Lemma CreateOrDefaultClient_empty (useragent : string) :
  CreateOrDefaultClient "" useragent
  = (Some (mkClient None useragent), None).
Proof. reflexivity. Qed.

Lemma CreateOrDefaultClient_invalid (proxy useragent : string) (e : error) :
  proxy <> "" ->
  proxyError proxy = Some e ->
  CreateOrDefaultClient proxy useragent = (None, Some e).
Proof.
  intros Hne Hbad. unfold CreateOrDefaultClient.
  apply String.eqb_neq in Hne. rewrite Hne, Hbad. reflexivity.
Qed.

Lemma CreateOrDefaultClient_useragent
  (proxy useragent : string) (c : HTTPClient) :
  fst (CreateOrDefaultClient proxy useragent) = Some c ->
  clientUserAgent c = useragent.
Proof.
  unfold CreateOrDefaultClient.
  destruct (proxy =? ""); [|destruct (proxyError proxy)]; simpl;
    intros H; inversion H; reflexivity.
Qed.

(** *** Command execution *)

(** When the hook fails, command execution stops there. *)
Lemma Command_Execute_hook_fails
  (flags : FlagValues) (cmd : Subcommand) (args : list string)
  (g : Globals) (e : error) :
  snd (RootPreRunE cmd args (fst (ParseFlags flags g))) = Ok (Some e) ->
  Command_Execute RootCmd (Matched flags cmd args) g
  = (fst (RootPreRunE cmd args (fst (ParseFlags flags g))), Ok (Some e)).
Proof.
  unfold Command_Execute. step_flags flags g. intros Hres.
  unfold bind at 1. simpl PersistentPreRunE.
  destruct (RootPreRunE cmd args g0) as [g1 r].
  simpl in Hres. subst r. reflexivity.
Qed.

(** When the hook succeeds, command execution goes on with the body, and
    a panic of the body passes through cobra. *)
Lemma Command_Execute_body
  (flags : FlagValues) (cmd : Subcommand) (args : list string) (g : Globals) :
  snd (RootPreRunE cmd args (fst (ParseFlags flags g))) = Ok None ->
  Command_Execute RootCmd (Matched flags cmd args) g
  = let g1 := fst (RootPreRunE cmd args (fst (ParseFlags flags g))) in
    match RunE cmd args g1 with
    | (g2, Ok r) => (g2, Ok r)
    | (g2, Panic v stack) => (g2, Panic v stack)
    | (g2, Exit c) => (g2, Exit c)
    end.
Proof.
  unfold Command_Execute. step_flags flags g. intros Hres.
  unfold bind at 1. simpl PersistentPreRunE.
  destruct (RootPreRunE cmd args g0) as [g1 r].
  simpl in Hres. subst r. cbv zeta. simpl fst. unfold bind at 1.
  destruct (RunE cmd args g1) as [g2 [[e|]|v stack|c]]; reflexivity.
Qed.

(** C4.  Whatever values [--quiet] and [--verbose] get on the command
    line, after the hook the logger is one of three: with [--verbose] on
    (whatever [--quiet] is) the logger with debug, info and error enabled;
    with only [--quiet] on the logger with all three disabled; with
    neither on the logger [init] installed, with info and error enabled
    and debug disabled. *)
Theorem hook_selects_logger
  (q v : option bool) (p u : option string)
  (cmd : Subcommand) (args : list string) :
  let g0 := fst (ParseFlags (mkFlags q v p u) init) in
  let l := Log (fst (RootPreRunE cmd args g0)) in
  l = (if given v false then NewLogger true true true
       else if given q false then NewLogger false false false
       else Log init)
  /\ levels l = (if given v false then (true, true, true)
                 else if given q false then (false, false, false)
                 else (false, true, true)).
Proof.
  cbv zeta. rewrite RootPreRunE_Log. unfold selected.
  destruct (ParseFlags_fields (mkFlags q v p u) init)
    as (Hq & Hv & _ & _ & Hl & _).
  cbv zeta in Hq, Hv, Hl. rewrite Hq, Hv, Hl. simpl.
  destruct (given v false), (given q false); split; reflexivity.
Qed.

(** C5, as amended.  When command execution returns or panics, the
    process status is 0 if it returned without an error and, unless it
    panicked with a nil value, only then; the status is 1 for every
    returned error, cancellation or not, and for every panic with a value
    that is not nil; and it is never anything but 0 or 1. *)
Theorem exit_code_zero_iff_success
  (inv : Invocation) (g g1 : Globals) (r : Result (option error)) :
  Command_Execute RootCmd inv (entered g) = (g1, r) ->
  isExit r = false ->
  (r = Ok None -> exitCode (snd (Execute inv g)) = 0%Z)
  /\ (nilPanic r = false ->
      (exitCode (snd (Execute inv g)) = 0%Z <-> r = Ok None)
      /\ (r <> Ok None -> exitCode (snd (Execute inv g)) = 1%Z))
  /\ (exitCode (snd (Execute inv g)) = 0%Z
      \/ exitCode (snd (Execute inv g)) = 1%Z).
Proof.
  intros Hrun Hex. rewrite Execute_cases, Hrun.
  destruct r as [[e|]|[v|] stack|c]; simpl in *; try discriminate.
  - repeat split; intros; try discriminate; auto.
  - repeat split; intros; auto; congruence.
  - repeat split; intros; try discriminate; auto.
  - repeat split; intros; try discriminate; auto.
Qed.

(** C6.  When client construction fails on the proxy and user agent the
    flags give, the hook returns that error, and command execution
    returns it in the state the hook left: the body of the matched
    subcommand is not entered. *)
Theorem client_failure_is_startup_failure
  (flags : FlagValues) (cmd : Subcommand) (args : list string)
  (g : Globals) (e : error) :
  let g0 := fst (ParseFlags flags g) in
  snd (CreateOrDefaultClient (proxyFlag g0) (useragentFlag g0)) = Some e ->
  snd (RootPreRunE cmd args g0) = Ok (Some e)
  /\ Command_Execute RootCmd (Matched flags cmd args) g
     = (fst (RootPreRunE cmd args g0), Ok (Some e)).
Proof.
  cbv zeta. intros Hfail.
  assert (Hres := RootPreRunE_result cmd args (fst (ParseFlags flags g))).
  rewrite Hfail in Hres. split; [exact Hres|].
  apply Command_Execute_hook_fails. exact Hres.
Qed.

(** C7, as amended.  A returned error is passed over in silence exactly
    when its message ends with the text of [context.Canceled]: the text
    itself or any message with that text as a suffix. *)
Theorem cancellation_is_suffix_match
  (inv : Invocation) (g g1 : Globals) (e : error) :
  Command_Execute RootCmd inv (entered g) = (g1, Ok (Some e)) ->
  trace (fst (Execute inv g)) = trace g1
  <-> exists pre, e = pre ++ Canceled.
Proof.
  intros Hrun. rewrite Execute_cases, Hrun, <- HasSuffix_iff.
  destruct (HasSuffix e Canceled); simpl; split; intros H;
    try reflexivity; try discriminate.
  exfalso. exact (app_one_neq _ _ H).
Qed.

(** C8.  When [--useragent] is not on the command line, the user agent
    the hook passes to client construction is ["crunchy-cli/"] followed by
    the version string. *)
Theorem default_useragent
  (q v : option bool) (p : option string)
  (cmd : Subcommand) (args : list string) :
  let g0 := fst (ParseFlags (mkFlags q v p None) init) in
  let g1 := fst (RootPreRunE cmd args g0) in
  useragentFlag g0 = "crunchy-cli/" ++ utils_Version
  /\ clientCalls (trace g1)
     = [(given p "", "crunchy-cli/" ++ utils_Version)]
  /\ Client g1
     = fst (CreateOrDefaultClient (given p "")
                                  ("crunchy-cli/" ++ utils_Version)).
Proof.
  cbv zeta. rewrite RootPreRunE_cases.
  destruct q as [[|]|], v as [[|]|], p as [p|]; simpl; repeat split.
Qed.

(** C9.  In every run of the hook the events come in this order: the
    assignment of the logger (when a flag asks for one), the debug
    message announcing the command, the call of client construction.
    The debug message is handed to the logger the flags select, so it is
    written under [--verbose], dropped under [--quiet] alone, and treated
    as the logger in place treats it when neither flag is on. *)
Theorem hook_order (cmd : Subcommand) (args : list string) (g : Globals) :
  let l := selected devOf g in
  trace (fst (RootPreRunE cmd args g))
  = (trace g
     ++ (if verboseFlag g || quietFlag g then [EvSetLog l] else [])
     ++ [EvLog LDebug (executing cmd args) (debugEnabled l);
         EvNewClient (proxyFlag g) (useragentFlag g)])%list
  /\ debugEnabled l = (if verboseFlag g then true
                       else if quietFlag g then false
                       else debugEnabled (Log g))
  /\ Log (fst (RootPreRunE cmd args g)) = l.
Proof.
  cbv zeta. split; [apply RootPreRunE_trace|].
  split; [|apply RootPreRunE_Log].
  unfold selected. destruct (verboseFlag g), (quietFlag g); reflexivity.
Qed.

(** C10.  An error met before any subcommand body is entered (an unknown
    subcommand, a flag that does not parse, the hook failing) comes back
    from command execution like any other: cobra prints neither the
    error nor the usage, and [Execute] hands one ["An error occurred: "]
    message with the error's text to the logger, unless the text ends
    with that of [context.Canceled], and ends the process with status 1. *)
Theorem startup_errors_reach_the_boundary
  (inv : Invocation) (g : Globals) (e : error) :
  startup_error proxyError inv (entered g) = Some e ->
  let g1 := startup_state devOf proxyError inv (entered g) in
  Command_Execute RootCmd inv (entered g) = (g1, Ok (Some e))
  /\ filter isCobraPrint (trace g1) = filter isCobraPrint (trace g)
  /\ Execute inv g
     = (if HasSuffix e Canceled then g1
        else record (error_line (Log g1) e) g1, Exit 1)
  /\ exitCode (snd (Execute inv g)) = 1%Z.
Proof.
  intros Hstart g1.
  assert (Hrun : Command_Execute RootCmd inv (entered g) = (g1, Ok (Some e))).
  { destruct inv as [msg|seen msg|flags cmd args]; simpl in Hstart.
    - injection Hstart as ->. reflexivity.
    - injection Hstart as ->. subst g1. unfold Command_Execute, startup_state.
      step_flags seen (entered g). reflexivity.
    - apply Command_Execute_hook_fails.
      rewrite RootPreRunE_result. f_equal. exact Hstart. }
  assert (Htr : filter isCobraPrint (trace g1) = filter isCobraPrint (trace g)).
  { subst g1. destruct inv as [msg|seen msg|flags cmd args];
      unfold startup_state.
    - reflexivity.
    - destruct (ParseFlags_fields seen (entered g)) as (_ & _ & _ & _ & _ & Ht).
      cbv zeta in Ht. rewrite Ht. reflexivity.
    - rewrite RootPreRunE_trace.
      destruct (ParseFlags_fields flags (entered g))
        as (_ & _ & _ & _ & _ & Ht0).
      cbv zeta in Ht0. rewrite Ht0.
      rewrite !List.filter_app. simpl.
      destruct (_ || _); simpl; rewrite List.app_nil_r; reflexivity. }
  repeat split; try assumption.
  - rewrite Execute_cases, Hrun. reflexivity.
  - rewrite Execute_cases, Hrun. reflexivity.
Qed.

(** ** Further properties of [Execute] and the hook *)

Lemma same_settings_refl (g : Globals) : same_settings g g.
Proof. repeat split. Qed.

Lemma same_settings_record (ev : Event) (g : Globals) :
  same_settings g (record ev g).
Proof. repeat split. Qed.

Lemma written_app (a b : list Event) :
  written (a ++ b)%list = (written a ++ written b)%list.
Proof.
  induction a as [|ev a IH]; simpl; [reflexivity|].
  destruct ev as [l|lvl msg [|]|p u|msg|]; simpl; rewrite IH; reflexivity.
Qed.

(** X1.  When command execution returns without an error, [Execute]
    returns to its caller in the state command execution left: the
    deferred function finds nothing to recover, nothing is handed to the
    logger and [os.Exit] is not called. *)
Theorem Execute_success (inv : Invocation) (g g1 : Globals) :
  Command_Execute RootCmd inv (entered g) = (g1, Ok None) ->
  Execute inv g = (g1, Ok tt).
Proof.
  intros Hrun. rewrite Execute_cases, Hrun. reflexivity.
Qed.

(** X2.  Whatever the invocation, [Execute] never ends in a panic, and
    after command execution it touches nothing but the trace: the flag
    variables, the logger and the client stay as command execution left
    them, and at most one event is added, a message at error level. *)
Theorem Execute_footprint (inv : Invocation) (g : Globals) :
  let g1 := fst (Command_Execute RootCmd inv (entered g)) in
  let g2 := fst (Execute inv g) in
  (forall v stack, snd (Execute inv g) <> Panic v stack)
  /\ same_settings g1 g2
  /\ exists ext,
       trace g2 = (trace g1 ++ ext)%list
       /\ (List.length ext <= 1)%nat
       /\ forallb isErrLog ext = true.
Proof.
  cbv zeta. rewrite Execute_cases.
  destruct (Command_Execute RootCmd inv (entered g))
    as [g1 [[e|]|[v|] stack|c]];
    simpl fst; simpl snd.
  - destruct (HasSuffix e Canceled).
    + split; [discriminate|]. split; [apply same_settings_refl|].
      exists []. rewrite List.app_nil_r. repeat split. simpl. lia.
    + split; [discriminate|]. split; [apply same_settings_record|].
      exists [error_line (Log g1) e]. repeat split. simpl. lia.
  - split; [discriminate|]. split; [apply same_settings_refl|].
    exists []. rewrite List.app_nil_r. repeat split. simpl. lia.
  - split; [discriminate|]. split; [apply same_settings_record|].
    exists [panic_line (Log g1) v stack]. repeat split. simpl. lia.
  - split; [discriminate|]. split; [apply same_settings_refl|].
    exists []. rewrite List.app_nil_r. repeat split. simpl. lia.
  - split; [discriminate|]. split; [apply same_settings_refl|].
    exists []. rewrite List.app_nil_r. repeat split. simpl. lia.
Qed.

(** X3.  When client construction succeeds, command execution is the body
    of the matched subcommand run in the state the hook left, in which
    the logger is the one the flags select and the client is the one
    just built; cobra adds nothing of its own, whatever the body returns. *)
Theorem body_runs_configured
  (flags : FlagValues) (cmd : Subcommand) (args : list string) (g : Globals) :
  let g0 := fst (ParseFlags flags g) in
  let g1 := fst (RootPreRunE cmd args g0) in
  snd (CreateOrDefaultClient (proxyFlag g0) (useragentFlag g0)) = None ->
  Command_Execute RootCmd (Matched flags cmd args) g = RunE cmd args g1
  /\ Log g1 = selected devOf g0
  /\ Client g1
     = fst (CreateOrDefaultClient (proxyFlag g0) (useragentFlag g0)).
Proof.
  cbv zeta. intros Hok. split; [|split].
  - rewrite Command_Execute_body.
    + cbv zeta.
      destruct (RunE cmd args
                  (fst (RootPreRunE cmd args (fst (ParseFlags flags g)))))
        as [g2 [r|v stack|c]]; reflexivity.
    + rewrite RootPreRunE_result, Hok. reflexivity.
  - apply RootPreRunE_Log.
  - rewrite RootPreRunE_cases. reflexivity.
Qed.

(** X4.  For a matched subcommand whose client was built, the outcome of
    the process is decided by the body: if it returns without error
    [Execute] returns; if it returns an error the process ends with
    status 1, after the ["An error occurred"] line unless the message
    ends with the text of [context.Canceled]; if it panics with a value
    that is not nil the panic is recovered and the process ends with
    status 1 after the panic line; if it panics with nil the panic is
    recovered too, but nothing is logged and [Execute] returns.  The line
    is handed to the logger the body left in place. *)
Theorem Execute_matched
  (flags : FlagValues) (cmd : Subcommand) (args : list string)
  (g g2 : Globals) (r : Result (option error)) :
  let g0 := fst (ParseFlags flags (entered g)) in
  let g1 := fst (RootPreRunE cmd args g0) in
  snd (CreateOrDefaultClient (proxyFlag g0) (useragentFlag g0)) = None ->
  RunE cmd args g1 = (g2, r) ->
  Execute (Matched flags cmd args) g =
  match r with
  | Ok None => (g2, Ok tt)
  | Ok (Some e) =>
      (if HasSuffix e Canceled then g2 else record (error_line (Log g2) e) g2,
       Exit 1)
  | Panic (Some v) stack =>
      (record (panic_line (Log g2) v stack) g2, Exit 1)
  | Panic None stack => (g2, Ok tt)
  | Exit c => (g2, Exit c)
  end.
Proof.
  cbv zeta. intros Hok Hbody.
  rewrite Execute_cases, Command_Execute_body.
  - cbv zeta. rewrite Hbody. destruct r as [[e|]|[v|] stack|c]; reflexivity.
  - rewrite RootPreRunE_result, Hok. reflexivity.
Qed.

(** X5.  The hook never writes the flag variables nor the completion
    setting: it changes the logger, the client and the trace only. *)
Theorem hook_keeps_flags (cmd : Subcommand) (args : list string) (g : Globals) :
  let g1 := fst (RootPreRunE cmd args g) in
  quietFlag g1 = quietFlag g
  /\ verboseFlag g1 = verboseFlag g
  /\ proxyFlag g1 = proxyFlag g
  /\ useragentFlag g1 = useragentFlag g
  /\ HiddenDefaultCmd g1 = HiddenDefaultCmd g.
Proof.
  cbv zeta. rewrite RootPreRunE_cases. cbv zeta.
  destruct (verboseFlag g || quietFlag g); repeat split.
Qed.

(** A flag that does not parse: the flags read so far are stored, and
    the error comes back with nothing printed. *)
Lemma Command_Execute_bad_flags
  (seen : FlagValues) (msg : error) (g : Globals) :
  Command_Execute RootCmd (BadFlags seen msg) g
  = (fst (ParseFlags seen g), Ok (Some msg)).
Proof.
  unfold Command_Execute. step_flags seen g. reflexivity.
Qed.

(** X6.  An error met before the hook runs (an unknown subcommand, a flag
    that does not parse) finds the logger [init] installed, whatever
    flags were read before the failure, [--quiet] included: unless the
    message ends with the text of [context.Canceled] the
    ["An error occurred"] line is written, and the process ends with
    status 1. *)
Theorem early_errors_are_written (seen : FlagValues) (msg : error) :
  HasSuffix msg Canceled = false ->
  (snd (Execute (NotFound msg) init) = Exit 1
   /\ written (trace (fst (Execute (NotFound msg) init)))
      = [(LErr, "An error occurred: " ++ msg)])
  /\ (snd (Execute (BadFlags seen msg) init) = Exit 1
      /\ written (trace (fst (Execute (BadFlags seen msg) init)))
         = [(LErr, "An error occurred: " ++ msg)]).
Proof.
  intros Hsuf. split.
  - pose proof (Execute_cases (NotFound msg) init) as E.
    simpl Command_Execute in E. unfold unless, bind, ret in E.
    cbv iota beta in E. rewrite Hsuf in E. rewrite E.
    split; reflexivity.
  - pose proof (Execute_cases (BadFlags seen msg) init) as E.
    rewrite Command_Execute_bad_flags, Hsuf in E. rewrite E.
    split; [reflexivity|].
    destruct (ParseFlags_fields seen (entered init))
      as (_ & _ & _ & _ & Hlog & Htr).
    cbv zeta in Hlog, Htr.
    simpl fst. unfold record, error_line. simpl trace.
    rewrite Htr, Hlog. reflexivity.
Qed.

(** X7.  When client construction fails in the hook, what the run writes
    is decided by the flags: under [--verbose] the debug line of the hook
    and the ["An error occurred"] line; under [--quiet] alone nothing at
    all; with neither the ["An error occurred"] line only.  The process
    ends with status 1 in each case. *)
Theorem failed_start_output
  (q v : option bool) (p u : option string)
  (cmd : Subcommand) (args : list string) (e : error) :
  snd (CreateOrDefaultClient (given p "")
                             (given u ("crunchy-cli/" ++ utils_Version)))
  = Some e ->
  HasSuffix e Canceled = false ->
  snd (Execute (Matched (mkFlags q v p u) cmd args) init) = Exit 1
  /\ written (trace (fst (Execute (Matched (mkFlags q v p u) cmd args) init)))
     = (if given v false
        then [(LDebug, executing cmd args);
              (LErr, "An error occurred: " ++ e)]
        else if given q false then []
        else [(LErr, "An error occurred: " ++ e)]).
Proof.
  intros Hfail Hsuf.
  pose proof (Execute_cases (Matched (mkFlags q v p u) cmd args) init) as E.
  rewrite (Command_Execute_hook_fails (mkFlags q v p u) cmd args
             (entered init) e) in E.
  - rewrite Hsuf in E. rewrite E. split; [reflexivity|].
    simpl fst. unfold record at 1. simpl trace.
    rewrite written_app, RootPreRunE_trace, RootPreRunE_Log, !written_app.
    unfold error_line, selected.
    destruct q as [[|]|], v as [[|]|], p as [p|], u as [u|]; reflexivity.
  - rewrite RootPreRunE_result. f_equal.
    destruct q as [[|]|], v as [[|]|], p as [p|], u as [u|]; exact Hfail.
Qed.

(** X8.  A returned error whose message is shorter than the text of
    [context.Canceled], the empty message included, is never taken for a
    cancellation: its line is handed to the logger. *)
Theorem short_error_is_logged
  (inv : Invocation) (g g1 : Globals) (e : error) :
  Command_Execute RootCmd inv (entered g) = (g1, Ok (Some e)) ->
  (String.length e < String.length Canceled)%nat ->
  Execute inv g = (record (error_line (Log g1) e) g1, Exit 1).
Proof.
  intros Hrun Hlen.
  assert (Hsuf : HasSuffix e Canceled = false).
  { unfold HasSuffix. apply Nat.leb_gt in Hlen. rewrite Hlen. reflexivity. }
  rewrite Execute_cases, Hrun, Hsuf. reflexivity.
Qed.

(** X9.  When [--useragent] is on the command line, its value is the user
    agent the hook passes to client construction, in the last event of
    the hook, and the client the hook leaves, if any, carries it. *)
Theorem supplied_useragent
  (q v : option bool) (p : option string) (ua : string)
  (cmd : Subcommand) (args : list string) (g : Globals) :
  let g1 := fst (RootPreRunE cmd args
                   (fst (ParseFlags (mkFlags q v p (Some ua)) g))) in
  (exists pre,
      trace g1 = (pre ++ [EvNewClient (given p (proxyFlag g)) ua])%list)
  /\ (forall c, Client g1 = Some c -> clientUserAgent c = ua).
Proof.
  cbv zeta. split.
  - rewrite RootPreRunE_trace.
    destruct (ParseFlags_fields (mkFlags q v p (Some ua)) g)
      as (_ & _ & Hp & Hu & _ & _).
    cbv zeta in Hp, Hu. rewrite Hp, Hu. simpl given.
    eexists. rewrite List.app_assoc.
    change [?a; ?b] with ([a] ++ [b])%list.
    rewrite List.app_assoc. reflexivity.
  - intros c Hc. rewrite RootPreRunE_cases in Hc. cbv zeta in Hc.
    simpl in Hc.
    apply CreateOrDefaultClient_useragent in Hc.
    destruct (ParseFlags_fields (mkFlags q v p (Some ua)) g)
      as (_ & _ & _ & Hu & _ & _).
    cbv zeta in Hu. rewrite Hu in Hc. exact Hc.
Qed.

(** X10.  When [--proxy] is not on the command line the proxy is the
    empty string [init] registered as default, and the hook cannot fail:
    it returns no error and leaves a default client with the user agent
    of the flags. *)
Theorem no_proxy_hook_succeeds
  (q v : option bool) (u : option string)
  (cmd : Subcommand) (args : list string) :
  let g0 := fst (ParseFlags (mkFlags q v None u) init) in
  snd (RootPreRunE cmd args g0) = Ok None
  /\ Client (fst (RootPreRunE cmd args g0))
     = Some (mkClient None (given u ("crunchy-cli/" ++ utils_Version))).
Proof.
  cbv zeta. rewrite RootPreRunE_cases.
  destruct q as [[|]|], v as [[|]|], u as [u|]; split; reflexivity.
Qed.

(** Command execution leaves the completion setting alone when the body
    does. *)
Lemma Command_Execute_keeps_completion (inv : Invocation) (g : Globals) :
  keeps_completion inv ->
  HiddenDefaultCmd (fst (Command_Execute RootCmd inv g)) = HiddenDefaultCmd g.
Proof.
  intros Hkeep.
  assert (Hflags : forall fv, HiddenDefaultCmd (fst (ParseFlags fv g))
                              = HiddenDefaultCmd g)
    by (intros [[q|] [v|] [p|] [u|]]; reflexivity).
  destruct inv as [msg|seen msg|flags cmd args].
  - reflexivity.
  - rewrite Command_Execute_bad_flags. apply Hflags.
  - assert (Hhook : HiddenDefaultCmd
                      (fst (RootPreRunE cmd args (fst (ParseFlags flags g))))
                    = HiddenDefaultCmd g).
    { rewrite RootPreRunE_cases. cbv zeta.
      destruct (verboseFlag _ || quietFlag _); apply Hflags. }
    pose proof (RootPreRunE_result cmd args (fst (ParseFlags flags g))) as Hres.
    destruct (snd (CreateOrDefaultClient
                     (proxyFlag (fst (ParseFlags flags g)))
                     (useragentFlag (fst (ParseFlags flags g))))) as [e|].
    + rewrite (Command_Execute_hook_fails flags cmd args g e Hres).
      exact Hhook.
    + rewrite (Command_Execute_body flags cmd args g Hres). cbv zeta.
      simpl in Hkeep.
      specialize (Hkeep (fst (RootPreRunE cmd args (fst (ParseFlags flags g))))).
      destruct (RunE cmd args
                  (fst (RootPreRunE cmd args (fst (ParseFlags flags g)))))
        as [g2 [r|v stack|c]]; simpl in Hkeep |- *; congruence.
Qed.

(** X11.  [Execute] hides the default completion command whatever the
    setting was: the run is the same from a state with the setting off
    or on, so that nothing in it, a subcommand body included, can see the
    earlier value; and when the body leaves the setting alone it is on
    when [Execute] is done. *)
Theorem Execute_hides_completion (inv : Invocation) (g : Globals) :
  (forall b, Execute inv (set_HiddenDefaultCmd b g) = Execute inv g)
  /\ (keeps_completion inv -> HiddenDefaultCmd (fst (Execute inv g)) = true).
Proof.
  split; [intros b; reflexivity|]. intros Hkeep.
  rewrite Execute_cases.
  pose proof (Command_Execute_keeps_completion inv (entered g) Hkeep) as H.
  destruct (Command_Execute RootCmd inv (entered g))
    as [g1 [[e|]|[v|] stack|c]]; simpl in H |- *; try exact H.
  destruct (HasSuffix e Canceled); exact H.
Qed.

End RootProperties.

(** ** The properties at work on the sample environment *)

Import Sample.

Lemma Execute_cancelled_witness :
  dispatched interrupted = (fst (dispatched interrupted), Ok (Some wrapped))
  /\ HasSuffix wrapped Canceled = true
  /\ exitCode (snd (run interrupted)) = 1%Z
  /\ trace (fst (run interrupted)) = trace (fst (dispatched interrupted)).
Proof.
  split; [reflexivity|]. split; [reflexivity|].
  apply (Execute_cancelled version dev proxy_error interrupted start
           (fst (dispatched interrupted)) wrapped);
    reflexivity.
Defined.

Lemma Execute_error_witness :
  let inv := Matched no_flags (fails "boom") ["one"; "two"] in
  dispatched inv = (fst (dispatched inv), Ok (Some "boom"))
  /\ HasSuffix "boom" Canceled = false
  /\ exitCode (snd (run inv)) = 1%Z
  /\ trace (fst (run inv))
     = (trace (fst (dispatched inv))
        ++ [EvLog LErr "An error occurred: boom" true])%list.
Proof.
  cbv zeta. split; [reflexivity|]. split; [reflexivity|].
  apply (Execute_error version dev proxy_error
           (Matched no_flags (fails "boom") ["one"; "two"]) start
           (fst (dispatched (Matched no_flags (fails "boom") ["one"; "two"])))
           "boom");
    reflexivity.
Defined.

Lemma Execute_panic_witness :
  let inv := Matched no_flags (panics "index out of range" "goroutine 1") [] in
  snd (dispatched inv) = Panic (Some "index out of range") "goroutine 1"
  /\ snd (run inv) = Exit 1
  /\ exitCode (snd (run inv)) = 1%Z
  /\ trace (fst (run inv))
     = (trace (fst (dispatched inv))
        ++ [EvLog LErr "Unexpected error: index out of range" true])%list.
Proof.
  cbv zeta. split; [reflexivity|].
  apply (Execute_panic version dev proxy_error
           (Matched no_flags (panics "index out of range" "goroutine 1") [])
           start
           (fst (dispatched
                   (Matched no_flags
                            (panics "index out of range" "goroutine 1") [])))
           "index out of range" "goroutine 1").
  reflexivity.
Defined.

Lemma exit_code_zero_iff_success_witness :
  let inv := Matched both succeeds ["series"] in
  isExit (snd (dispatched inv)) = false
  /\ nilPanic (snd (dispatched inv)) = false
  /\ (exitCode (snd (run inv)) = 0%Z <-> snd (dispatched inv) = Ok None).
Proof.
  cbv zeta. split; [reflexivity|]. split; [reflexivity|].
  apply (exit_code_zero_iff_success version dev proxy_error
           (Matched both succeeds ["series"]) start
           (fst (dispatched (Matched both succeeds ["series"])))
           (snd (dispatched (Matched both succeeds ["series"])))
           eq_refl eq_refl).
  reflexivity.
Defined.

Lemma client_failure_is_startup_failure_witness :
  snd (CreateOrDefaultClient proxy_error "nonsense" "crunchy-cli/3.0.0")
  = Some "invalid proxy: nonsense"
  /\ snd (Command_Execute root (Matched bad_proxy (panics "never" "") []) start)
     = Ok (Some "invalid proxy: nonsense").
Proof.
  split; [reflexivity|].
  pose proof (client_failure_is_startup_failure version dev proxy_error
                bad_proxy (panics "never" "") [] start
                "invalid proxy: nonsense" eq_refl) as [_ H].
  unfold root. rewrite H. reflexivity.
Defined.

Lemma cancellation_is_suffix_match_witness :
  dispatched interrupted = (fst (dispatched interrupted), Ok (Some wrapped))
  /\ (trace (fst (run interrupted)) = trace (fst (dispatched interrupted))
      <-> exists pre, wrapped = pre ++ Canceled).
Proof.
  split; [reflexivity|].
  apply (cancellation_is_suffix_match version dev proxy_error interrupted
           start (fst (dispatched interrupted)) wrapped).
  reflexivity.
Defined.

Lemma startup_errors_reach_the_boundary_witness :
  let inv := BadFlags quiet_only "unknown flag: --bogus" in
  startup_error proxy_error inv (set_HiddenDefaultCmd true start)
  = Some "unknown flag: --bogus"
  /\ filter isCobraPrint (trace (fst (dispatched inv))) = []
  /\ exitCode (snd (run inv)) = 1%Z.
Proof.
  cbv zeta. split; [reflexivity|].
  pose proof (startup_errors_reach_the_boundary version dev proxy_error
                (BadFlags quiet_only "unknown flag: --bogus") start
                "unknown flag: --bogus" eq_refl) as (H1 & H2 & _ & H4).
  split; [|exact H4].
  unfold dispatched, root. rewrite H1. exact H2.
Defined.

(** C7 as stated fails: an error whose message only ends with the text of
    [context.Canceled] is passed over in silence although the message is
    not that text. *)
Lemma cancellation_match_not_exact :
  ~ (trace (fst (run interrupted)) = trace (fst (dispatched interrupted))
     <-> wrapped = Canceled).
Proof.
  intros [H _]. specialize (H eq_refl). discriminate H.
Qed.

(** C3 as stated fails: a body that does [panic(nil)] makes [recover()]
    return nil, so the deferred function logs nothing and does not call
    [os.Exit]; [Execute] returns and the process does not end with
    status 1. *)
Lemma nil_panic_not_reported :
  snd (dispatched nil_panic) = Panic None "goroutine 1"
  /\ run nil_panic = (fst (dispatched nil_panic), Ok tt)
  /\ exitCode (snd (run nil_panic)) <> 1%Z.
Proof.
  split; [reflexivity|]. split; [reflexivity|]. discriminate.
Qed.

(** C5 as stated fails: after [panic(nil)] the status is 0 although
    command execution did not complete. *)
Lemma nil_panic_exits_zero :
  ~ (exitCode (snd (run nil_panic)) = 0%Z
     <-> snd (dispatched nil_panic) = Ok None).
Proof.
  intros [H _]. specialize (H eq_refl). discriminate H.
Qed.

(** What is handed to the logger is written only at an enabled level:
    under [--quiet] the line of a failed command is dropped. *)
Example error_line_written :
  written (trace (fst (run (Matched no_flags (fails "boom") []))))
  = [(LErr, "An error occurred: boom")].
Proof. reflexivity. Qed.

Example error_line_dropped_when_quiet :
  written (trace (fst (run (Matched quiet_only (fails "boom") [])))) = []
  /\ snd (run (Matched quiet_only (fails "boom") [])) = Exit 1.
Proof. split; reflexivity. Qed.

Example verbose_wins :
  written (trace (fst (run (Matched both succeeds ["series"]))))
  = [(LDebug, "Executing `info` command with 1 arg(s)")]
  /\ snd (run (Matched both succeeds ["series"])) = Ok tt.
Proof. split; reflexivity. Qed.

(** A command that silences nothing has cobra print the error and the
    usage itself. *)
Example loud_prints :
  trace (fst (Command_Execute loud (BadFlags no_flags "unknown flag: --bogus")
                              start))
  = [EvCobraError "unknown flag: --bogus"; EvCobraUsage].
Proof. reflexivity. Qed.

Example root_is_silent :
  trace (fst (Command_Execute root (BadFlags no_flags "unknown flag: --bogus")
                              start))
  = [].
Proof. reflexivity. Qed.

(** ** The further properties on the sample environment *)

Lemma Execute_success_witness :
  let inv := Matched both succeeds ["series"] in
  dispatched inv = (fst (dispatched inv), Ok None)
  /\ run inv = (fst (dispatched inv), Ok tt).
Proof.
  cbv zeta. split; [reflexivity|].
  apply (Execute_success version dev proxy_error
           (Matched both succeeds ["series"]) start
           (fst (dispatched (Matched both succeeds ["series"])))).
  reflexivity.
Defined.

Lemma body_runs_configured_witness :
  snd (CreateOrDefaultClient proxy_error "" "crunchy-cli/3.0.0") = None
  /\ snd (Command_Execute root (Matched no_flags (fails "boom") []) start)
     = Ok (Some "boom").
Proof.
  split; [reflexivity|].
  pose proof (body_runs_configured version dev proxy_error
                no_flags (fails "boom") [] start eq_refl) as [H _].
  unfold root. rewrite H. reflexivity.
Defined.

Lemma Execute_matched_witness :
  let inv := Matched verbose_only (panics "boom" "goroutine 1") ["a"] in
  snd (CreateOrDefaultClient proxy_error "" "crunchy-cli/3.0.0") = None
  /\ snd (run inv) = Exit 1
  /\ written (trace (fst (run inv)))
     = [(LDebug, "Executing `archive` command with 1 arg(s)");
        (LErr, "boom: goroutine 1")].
Proof.
  cbv zeta. split; [reflexivity|].
  unfold run.
  rewrite (Execute_matched version dev proxy_error
             verbose_only (panics "boom" "goroutine 1") ["a"] start
             _ (Panic (Some "boom") "goroutine 1") eq_refl eq_refl).
  split; reflexivity.
Defined.

Lemma early_errors_are_written_witness :
  let msg := "unknown flag: --bogus" in
  HasSuffix msg Canceled = false
  /\ snd (run (BadFlags quiet_only msg)) = Exit 1
  /\ written (trace (fst (run (BadFlags quiet_only msg))))
     = [(LErr, "An error occurred: unknown flag: --bogus")].
Proof.
  cbv zeta. split; [reflexivity|].
  apply (early_errors_are_written version dev proxy_error quiet_only
           "unknown flag: --bogus").
  reflexivity.
Defined.

Lemma failed_start_output_witness :
  let inv := Matched (mkFlags (Some true) None (Some "nonsense") None)
                     succeeds [] in
  snd (CreateOrDefaultClient proxy_error "nonsense" "crunchy-cli/3.0.0")
  = Some "invalid proxy: nonsense"
  /\ snd (run inv) = Exit 1
  /\ written (trace (fst (run inv))) = [].
Proof.
  cbv zeta. split; [reflexivity|].
  apply (failed_start_output version dev proxy_error
           (Some true) None (Some "nonsense") None succeeds []
           "invalid proxy: nonsense");
    reflexivity.
Defined.

Lemma short_error_is_logged_witness :
  let inv := Matched no_flags (fails "") [] in
  dispatched inv = (fst (dispatched inv), Ok (Some ""))
  /\ (String.length "" < String.length Canceled)%nat
  /\ written (trace (fst (run inv))) = [(LErr, "An error occurred: ")].
Proof.
  cbv zeta. split; [reflexivity|]. split; [simpl; lia|].
  unfold run.
  rewrite (short_error_is_logged version dev proxy_error
             (Matched no_flags (fails "") []) start
             (fst (dispatched (Matched no_flags (fails "") []))) ""
             eq_refl).
  - reflexivity.
  - simpl. lia.
Defined.

Lemma Execute_hides_completion_witness :
  let inv := Matched quiet_only (fails "boom") [] in
  HiddenDefaultCmd start = false
  /\ keeps_completion inv
  /\ HiddenDefaultCmd (fst (run inv)) = true.
Proof.
  cbv zeta. split; [reflexivity|].
  assert (Hkeep : keeps_completion (Matched quiet_only (fails "boom") []))
    by (intros g; reflexivity).
  split; [exact Hkeep|].
  apply (Execute_hides_completion version dev proxy_error
           (Matched quiet_only (fails "boom") []) start).
  exact Hkeep.
Defined.
